(** * simple-api-client: the bearer-token HTTP client of [api_client.py]

    A shallow embedding of the class [APIClient] (constructor, token
    loading, the four verb wrappers and response normalization) and the
    properties of it that the specification states.

    Python strings are modelled by [string]; a character stands for the
    code point of the same number (U+0000 to U+00FF).  Dictionaries with
    string keys are [gmap string _], so that two dictionaries are equal
    when they hold the same items, as with Python's [==]. *)

From Stdlib Require Import Ascii String.
From stdpp Require Import gmap strings list fin_maps pretty.

Local Set Warnings "-register-all".
Local Open Scope string_scope.
Local Open Scope Z_scope.

(** ** Python strings *)

Module Str.

(** [str.isspace] on one character: the code points below 256 that
    Python counts as whitespace are 9-13, 28-32, 133 and 160. *)
Definition isspace (c : ascii) : bool :=
  let n := Z.of_N (N_of_ascii c) in
  ((9 <=? n) && (n <=? 13)) || ((28 <=? n) && (n <=? 32))
  || (n =? 133) || (n =? 160).

(** Membership of a character in the [chars] argument of
    [lstrip]/[rstrip]. *)
Fixpoint mem (c : ascii) (chars : string) : bool :=
  match chars with
  | EmptyString => false
  | String d chars' => if Ascii.eqb c d then true else mem c chars'
  end.

Fixpoint lstrip_by (p : ascii → bool) (s : string) : string :=
  match s with
  | EmptyString => EmptyString
  | String c s' => if p c then lstrip_by p s' else s
  end.

Fixpoint rstrip_by (p : ascii → bool) (s : string) : string :=
  match s with
  | EmptyString => EmptyString
  | String c s' =>
      match rstrip_by p s' with
      | EmptyString => if p c then EmptyString else String c EmptyString
      | t => String c t
      end
  end.

(** [s.lstrip(chars)], [s.rstrip(chars)] and [s.strip()]. *)
Definition lstrip (chars s : string) : string := lstrip_by (λ c, mem c chars) s.
Definition rstrip (chars s : string) : string := rstrip_by (λ c, mem c chars) s.
Definition strip (s : string) : string := rstrip_by isspace (lstrip_by isspace s).

(** Truth value of a string: only the empty string is false. *)
Definition truthy (s : string) : bool :=
  match s with EmptyString => false | String _ _ => true end.

(** [a or b] on strings. *)
Definition or (a b : string) : string := if truthy a then a else b.

(** [s[:n]] for [n >= 0]. *)
Fixpoint take (n : nat) (s : string) : string :=
  match n, s with
  | S n', String c s' => String c (take n' s')
  | _, _ => EmptyString
  end.

(** [s * n] *)
Fixpoint mul (s : string) (n : nat) : string :=
  match n with
  | O => EmptyString
  | S n' => s +:+ mul s n'
  end.

(** Every character of [s] satisfies [p]. *)
Fixpoint all (p : ascii → bool) (s : string) : bool :=
  match s with
  | EmptyString => true
  | String c s' => p c && all p s'
  end.

End Str.

(** ** Python values and exceptions *)

(** The values [response.json()] can return, which are also the values a
    verb call hands back to its caller.  A float is carried as its
    IEEE-754 binary64 bit pattern; no operation of the client looks
    inside one. *)
Inductive pyval :=
  | PNone
  | PBool (b : bool)
  | PInt (z : Z)
  | PFloat (bits : N)
  | PStr (s : string)
  | PList (l : list pyval)
  | PDict (d : gmap string pyval).

(** [type(v).__name__] *)
Definition type_name (v : pyval) : string :=
  match v with
  | PNone => "NoneType"
  | PBool _ => "bool"
  | PInt _ => "int"
  | PFloat _ => "float"
  | PStr _ => "str"
  | PList _ => "list"
  | PDict _ => "dict"
  end.

Definition is_mapping (v : pyval) : bool :=
  match v with PDict _ => true | _ => false end.

(** The exception classes that matter to the client's [except] clauses:
    builtins, [json.JSONDecodeError], and the classes of
    [requests.exceptions] ([ConnectionError] is the one of [requests];
    [RequestsJSONDecodeError] is [requests.exceptions.JSONDecodeError],
    which is both a [RequestException] and a [json.JSONDecodeError]). *)
Inductive exc_class :=
  | BaseException | KeyboardInterrupt | Exception
  | AttributeError | ValueError | UnicodeDecodeError | JSONDecodeError
  | RuntimeError | RecursionError
  | OSError | FileNotFoundError | PermissionError | IsADirectoryError
  | RequestException | ConnectionError | SSLError
  | Timeout | ConnectTimeout | ReadTimeout
  | RequestsJSONDecodeError.

Global Instance exc_class_eq_dec : EqDecision exc_class.
Proof. solve_decision. Defined.

(** Direct base classes. *)
Definition bases (c : exc_class) : list exc_class :=
  match c with
  | BaseException => []
  | KeyboardInterrupt | Exception => [BaseException]
  | AttributeError | ValueError | RuntimeError | OSError => [Exception]
  | UnicodeDecodeError | JSONDecodeError => [ValueError]
  | RecursionError => [RuntimeError]
  | FileNotFoundError | PermissionError | IsADirectoryError => [OSError]
  | RequestException => [OSError]
  | ConnectionError | Timeout => [RequestException]
  | SSLError => [ConnectionError]
  | ConnectTimeout => [ConnectionError; Timeout]
  | ReadTimeout => [Timeout]
  | RequestsJSONDecodeError => [RequestException; JSONDecodeError]
  end.

Fixpoint issubclass_upto (depth : nat) (c d : exc_class) : bool :=
  bool_decide (c = d) ||
  match depth with
  | O => false
  | S depth' => existsb (λ b, issubclass_upto depth' b d) (bases c)
  end.

(** [issubclass(c, d)]; no class above is more than five steps below
    [BaseException]. *)
Definition issubclass (c d : exc_class) : bool := issubclass_upto 6 c d.

(** A raised exception: its class and [str(e)]. *)
Record exc := { exc_type : exc_class; exc_str : string }.

(** ** The world outside the client, and computations in it *)

Inductive outcome (A : Type) :=
  | Return (a : A)
  | Raise (e : exc).
Arguments Return {A} a.
Arguments Raise {A} e.

Inductive http_method := GET | POST | PUT | DELETE.

(** What a [requests.Session] method is called with: the verb, the URL
    and the keyword arguments, together with the session's default
    headers. *)
Record Request := {
  req_method : http_method;
  req_url : string;
  req_headers : gmap string string;
  req_params : pyval;
  req_data : pyval;
  req_json : pyval;
}.

(** A [requests.Response] as the client looks at it: [status_code],
    [text], and what [json()] does: it returns the decoded body, or it
    raises.  For a body that is not JSON it raises a
    [json.JSONDecodeError]; for a body that is JSON but that the decoder
    refuses it raises something else (a [ValueError] for an integer of
    more than 4300 digits, a [RecursionError] for too deep a nesting). *)
Record Response := {
  status_code : Z;
  text : string;
  json : outcome pyval;
}.

(** What is at a path.  Either the path cannot even be examined:
    [Path.exists()] raises (an [OSError] other than "no such file", such
    as a name that is too long or a directory that may not be searched;
    a Python whose [exists()] answers [False] there sees no file).  Or
    a file exists, and reading it as text either raises or gives its
    contents. *)
Inductive file :=
  | Inaccessible (e : exc)
  | Unreadable (e : exc)
  | Readable (contents : string).

Record World := {
  environ : gmap string string;          (* os.environ, after load_dotenv() *)
  files : gmap string file;              (* the paths that exist *)
  stdout : list string;                  (* lines printed so far *)
  session_default_headers : gmap string string;
                                         (* headers of a fresh requests.Session() *)
  transport : Request → outcome Response; (* what the HTTP library answers *)
  sent : list Request;                   (* requests issued so far *)
}.

(** A computation reads and changes the world and returns or raises; the
    changes made before an exception is raised stay. *)
Definition M (A : Type) : Type := World → outcome A * World.

Global Instance M_ret : MRet M := λ A a w, (Return a, w).
Global Instance M_bind : MBind M := λ A B f m w,
  match m w with
  | (Return a, w') => f a w'
  | (Raise e, w') => (Raise e, w')
  end.

Definition raise {A} (e : exc) : M A := λ w, (Raise e, w).

(** [try: body / except cls as e: handler e] *)
Definition try_except {A} (body : M A) (cls : exc_class) (handler : exc → M A) : M A :=
  λ w, match body w with
       | (Return a, w') => (Return a, w')
       | (Raise e, w') =>
           if issubclass (exc_type e) cls then handler e w' else (Raise e, w')
       end.

Definition print (line : string) : M () := λ w,
  (Return (),
   {| environ := environ w; files := files w; stdout := stdout w ++ [line];
      session_default_headers := session_default_headers w;
      transport := transport w; sent := sent w |}).

(** [os.getenv(key, default)] *)
Definition getenv (key fallback : string) : M string := λ w,
  (Return (default fallback (environ w !! key)), w).

(** [Path(p).exists()] *)
Definition path_exists (p : string) : M bool := λ w,
  match files w !! p with
  | Some (Inaccessible e) => (Raise e, w)
  | Some _ => (Return true, w)
  | None => (Return false, w)
  end.

(** [open(p, 'r')] followed by [f.read()]; a path that has vanished
    since it was checked raises [FileNotFoundError]. *)
Definition read_file (p : string) : M string := λ w,
  match files w !! p with
  | Some (Readable contents) => (Return contents, w)
  | Some (Unreadable e) | Some (Inaccessible e) => (Raise e, w)
  | None =>
      (Raise {| exc_type := FileNotFoundError;
                exc_str := "[Errno 2] No such file or directory: '" +:+ p +:+ "'" |}, w)
  end.

(** ** The HTTP library as the client uses it *)

Record Session := { headers : gmap string string }.

(** [requests.Session()] *)
Definition Session_new : M Session := λ w,
  (Return {| headers := session_default_headers w |}, w).

(** [session.headers.update(d)]: the items of [d] override. *)
Definition headers_update (d : gmap string string) (s : Session) : Session :=
  {| headers := d ∪ headers s |}.

(** The world after one more request has gone out. *)
Definition log_request (req : Request) (w : World) : World :=
  {| environ := environ w; files := files w; stdout := stdout w;
     session_default_headers := session_default_headers w;
     transport := transport w; sent := sent w ++ [req] |}.

(** [session.get(url, params=...)], [session.post(url, data=..., json=...)]
    and the like: the request goes out, and the library returns a
    response or raises. *)
Definition Session_request (s : Session) (m : http_method) (url : string)
    (params data json_data : pyval) : M Response := λ w,
  let req := {| req_method := m; req_url := url; req_headers := headers s;
                req_params := params; req_data := data; req_json := json_data |} in
  (transport w req, log_request req w).

(** [response.json()] *)
Definition Response_json (response : Response) : M pyval :=
  match json response with
  | Return v => mret v
  | Raise e => raise e
  end.

(** [v.get(key, default)]: only a dictionary has the method. *)
Definition py_get (v : pyval) (key : string) (fallback : pyval) : M pyval :=
  match v with
  | PDict d => mret (default fallback (d !! key))
  | _ =>
      raise {| exc_type := AttributeError;
               exc_str := "'" +:+ type_name v +:+ "' object has no attribute 'get'" |}
  end.

(** ** class APIClient *)

Module APIClient.

Record t := {
  token_file : string;
  base_url : string;
  token : option string;
  session : Session;
}.

(** [_load_token(self)]; of [self] it reads [token_file] only. *)
Definition _load_token (self_token_file : string) : M (option string) :=
  found ← path_exists self_token_file;
  if negb found then
    print ("Warning: Token file '" +:+ self_token_file +:+ "' not found.");;
    print "Please create the file with your bearer token.";;
    mret None
  else
    try_except
      (contents ← read_file self_token_file;
       let token := Str.strip contents in
       if negb (Str.truthy token) then
         print ("Warning: Token file '" +:+ self_token_file +:+ "' is empty.");;
         mret None
       else
         mret (Some token))
      Exception
      (λ e, print ("Error reading token file: " +:+ exc_str e);; mret None).

(** [__init__(self, token_file="token.txt", base_url=None)] *)
Definition __init__ (token_file : string) (base_url : option string) : M t :=
  self_base_url ←
    match base_url with
    | Some b => if Str.truthy b then mret b else getenv "API_BASE_URL" ""
    | None => getenv "API_BASE_URL" ""
    end;
  self_token ← _load_token token_file;
  fresh ← Session_new;
  let self_session :=
    match self_token with
    | Some tok =>
        if Str.truthy tok then
          headers_update
            {[ "Authorization" := "Bearer " +:+ tok;
               "Content-Type" := "application/json" ]} fresh
        else fresh
    | None => fresh
    end in
  mret {| token_file := token_file; base_url := self_base_url;
          token := self_token; session := self_session |}.

(** [_handle_response(self, response)] *)
Definition _handle_response (self : t) (response : Response) : M pyval :=
  try_except
    (json_response ← Response_json response;
     if 400 <=? status_code response then
       message ← py_get json_response "message" (PStr "Unknown error");
       mret (PDict {[ "error" := PStr ("HTTP " +:+ pretty (status_code response));
                      "message" := message;
                      "details" := json_response ]})
     else
       mret json_response)
    JSONDecodeError
    (λ _,
       if 400 <=? status_code response then
         mret (PDict {[ "error" := PStr ("HTTP " +:+ pretty (status_code response));
                        "message" := PStr (Str.or (text response) "Unknown error") ]})
       else
         mret (PDict {[ "content" := PStr (text response) ]})).

(** [get(self, endpoint, params=None)] *)
Definition get (self : t) (endpoint : string) (params : pyval) : M pyval :=
  let url := Str.rstrip "/" (base_url self) +:+ "/" +:+ Str.lstrip "/" endpoint in
  try_except
    (response ← Session_request (session self) GET url params PNone PNone;
     _handle_response self response)
    RequestException
    (λ e, mret (PDict {[ "error" := PStr ("Request failed: " +:+ exc_str e) ]})).

(** [post(self, endpoint, data=None, json_data=None)] *)
Definition post (self : t) (endpoint : string) (data json_data : pyval) : M pyval :=
  let url := Str.rstrip "/" (base_url self) +:+ "/" +:+ Str.lstrip "/" endpoint in
  try_except
    (response ← Session_request (session self) POST url PNone data json_data;
     _handle_response self response)
    RequestException
    (λ e, mret (PDict {[ "error" := PStr ("Request failed: " +:+ exc_str e) ]})).

(** [put(self, endpoint, data=None, json_data=None)] *)
Definition put (self : t) (endpoint : string) (data json_data : pyval) : M pyval :=
  let url := Str.rstrip "/" (base_url self) +:+ "/" +:+ Str.lstrip "/" endpoint in
  try_except
    (response ← Session_request (session self) PUT url PNone data json_data;
     _handle_response self response)
    RequestException
    (λ e, mret (PDict {[ "error" := PStr ("Request failed: " +:+ exc_str e) ]})).

(** [delete(self, endpoint)] *)
Definition delete (self : t) (endpoint : string) : M pyval :=
  let url := Str.rstrip "/" (base_url self) +:+ "/" +:+ Str.lstrip "/" endpoint in
  try_except
    (response ← Session_request (session self) DELETE url PNone PNone PNone;
     _handle_response self response)
    RequestException
    (λ e, mret (PDict {[ "error" := PStr ("Request failed: " +:+ exc_str e) ]})).

End APIClient.

(** ** The entry point *)

(** The line feed character, written [\n] in the source. *)
Definition LF : string := String (ascii_of_nat 10) EmptyString.

(** [main()]: each [print] adds its argument to [stdout]. *)
Definition main : M () :=
  print "API Client Example";;
  print (Str.mul "=" 50);;
  client ← APIClient.__init__ "token.txt" None;
  let no_token : M () :=
    print "No valid token found. Please check your token.txt file." in
  match APIClient.token client with
  | None => no_token
  | Some tok =>
      if negb (Str.truthy tok) then no_token
      else
        print ("Token loaded successfully (first 10 chars): "
               +:+ Str.take 10 tok +:+ "...");;
        print ("Base URL: " +:+ Str.or (APIClient.base_url client) "Not set");;
        print (LF +:+ "API client is ready to use!");;
        print "Modify the main() function to add your specific API calls."
  end.

(** ** Verb calls, uniformly *)

(** One call of one of the four verb methods with its arguments. *)
Inductive verb_call :=
  | CallGet (endpoint : string) (params : pyval)
  | CallPost (endpoint : string) (data json_data : pyval)
  | CallPut (endpoint : string) (data json_data : pyval)
  | CallDelete (endpoint : string).

Definition call (self : APIClient.t) (c : verb_call) : M pyval :=
  match c with
  | CallGet endpoint params => APIClient.get self endpoint params
  | CallPost endpoint data json_data => APIClient.post self endpoint data json_data
  | CallPut endpoint data json_data => APIClient.put self endpoint data json_data
  | CallDelete endpoint => APIClient.delete self endpoint
  end.

Definition endpoint_of (c : verb_call) : string :=
  match c with
  | CallGet endpoint _ | CallPost endpoint _ _
  | CallPut endpoint _ _ | CallDelete endpoint => endpoint
  end.

Definition method_of (c : verb_call) : http_method :=
  match c with
  | CallGet _ _ => GET
  | CallPost _ _ _ => POST
  | CallPut _ _ _ => PUT
  | CallDelete _ => DELETE
  end.

(** The value a call returns to its caller, or the exception it raises. *)
Definition result_of {A} (r : outcome A * World) : outcome A := fst r.

(** The request a call hands to the session. *)
Definition request_of (self : APIClient.t) (c : verb_call) : Request :=
  {| req_method := method_of c;
     req_url := Str.rstrip "/" (APIClient.base_url self) +:+ "/"
                +:+ Str.lstrip "/" (endpoint_of c);
     req_headers := headers (APIClient.session self);
     req_params := match c with CallGet _ params => params | _ => PNone end;
     req_data := match c with
                 | CallPost _ data _ | CallPut _ data _ => data
                 | _ => PNone
                 end;
     req_json := match c with
                 | CallPost _ _ json_data | CallPut _ _ json_data => json_data
                 | _ => PNone
                 end |}.

(** ** Notions used to state the properties *)

(** [n] slashes in a row. *)
Fixpoint slashes (n : nat) : string :=
  match n with
  | O => ""
  | S n' => String "/" (slashes n')
  end.

(** What [_load_token] comes to, by the state of the token file. *)
Definition loaded (f : option file) : outcome (option string) :=
  match f with
  | None => Return None
  | Some (Readable contents) =>
      Return (if decide (Str.strip contents = "")
              then None else Some (Str.strip contents))
  | Some (Unreadable e) =>
      if issubclass (exc_type e) Exception then Return None else Raise e
  | Some (Inaccessible e) => Raise e
  end.

(** The lines the constructor prints, by the state of the token file. *)
Definition diagnostics (path : string) (f : option file) : list string :=
  match f with
  | None =>
      ["Warning: Token file '" +:+ path +:+ "' not found.";
       "Please create the file with your bearer token."]
  | Some (Readable contents) =>
      if decide (Str.strip contents = "")
      then ["Warning: Token file '" +:+ path +:+ "' is empty."]
      else []
  | Some (Unreadable e) =>
      if issubclass (exc_type e) Exception
      then ["Error reading token file: " +:+ exc_str e]
      else []
  | Some (Inaccessible _) => []
  end.

(** The world with more lines printed. *)
Definition printed (lines : list string) (w : World) : World :=
  {| environ := environ w; files := files w; stdout := stdout w ++ lines;
     session_default_headers := session_default_headers w;
     transport := transport w; sent := sent w |}.

(** What normalizing a response comes to: the value returned or the
    exception raised. *)
Definition normalized (r : Response) : outcome pyval :=
  match json r with
  | Return body =>
      if 400 <=? status_code r then
        match body with
        | PDict d =>
            Return (PDict {[ "error" := PStr ("HTTP " +:+ pretty (status_code r));
                             "message" := default (PStr "Unknown error")
                                            (d !! "message");
                             "details" := body ]})
        | _ =>
            Raise {| exc_type := AttributeError;
                     exc_str := "'" +:+ type_name body
                                +:+ "' object has no attribute 'get'" |}
        end
      else Return body
  | Raise e =>
      if issubclass (exc_type e) JSONDecodeError then
        Return (if 400 <=? status_code r
                then PDict {[ "error" := PStr ("HTTP " +:+ pretty (status_code r));
                              "message" := PStr (Str.or (text r) "Unknown error") ]}
                else PDict {[ "content" := PStr (text r) ]})
      else Raise e
  end.

(** What a verb call comes to once the session has answered. *)
Definition finished (o : outcome Response) : outcome pyval :=
  match match o with Return r => normalized r | Raise e => Raise e end with
  | Return v => Return v
  | Raise e =>
      if issubclass (exc_type e) RequestException
      then Return (PDict {[ "error" := PStr ("Request failed: " +:+ exc_str e) ]})
      else Raise e
  end.

(** ** Example worlds and clients *)

Module Examples.

Definition requests_defaults : gmap string string :=
  {[ "User-Agent" := "python-requests/2.31.0";
     "Accept-Encoding" := "gzip, deflate";
     "Accept" := "*/*";
     "Connection" := "keep-alive" ]}.

(** A world with the given files and environment in which the transport
    gives the same outcome to every request. *)
Definition world (fs : gmap string file) (env : gmap string string)
    (o : outcome Response) : World :=
  {| environ := env; files := fs; stdout := [];
     session_default_headers := requests_defaults;
     transport := λ _, o; sent := [] |}.

Definition answering (o : outcome Response) : World := world ∅ ∅ o.

Definition connection_refused : exc :=
  {| exc_type := ConnectionError;
     exc_str := "HTTPSConnectionPool(host='api.test.com', port=443): Max retries exceeded" |}.

Definition permission_denied : exc :=
  {| exc_type := PermissionError;
     exc_str := "[Errno 13] Permission denied: 'token.txt'" |}.

(** The client of the test suite's [setUp]. *)
Definition test_client : APIClient.t :=
  {| APIClient.token_file := "token.txt";
     APIClient.base_url := "https://api.test.com";
     APIClient.token := Some "test_token_12345";
     APIClient.session :=
       {| headers := {[ "Authorization" := "Bearer test_token_12345";
                        "Content-Type" := "application/json" ]}
                     ∪ requests_defaults |} |}.

(** The same client, its base URL written with slashes at the end. *)
Definition slashed_client : APIClient.t :=
  {| APIClient.token_file := "token.txt";
     APIClient.base_url := "https://api.test.com//";
     APIClient.token := Some "test_token_12345";
     APIClient.session := APIClient.session test_client |}.

(** A client built without a token file, a base URL argument or
    [API_BASE_URL]. *)
Definition bare_client : APIClient.t :=
  {| APIClient.token_file := "token.txt";
     APIClient.base_url := "";
     APIClient.token := None;
     APIClient.session := {| headers := requests_defaults |} |}.

(** The client of [test_environment_variable_loading]. *)
Definition env_client : APIClient.t :=
  {| APIClient.token_file := "token.txt";
     APIClient.base_url := "https://env.test.com";
     APIClient.token := Some "env_test_token";
     APIClient.session :=
       {| headers := {[ "Authorization" := "Bearer env_test_token";
                        "Content-Type" := "application/json" ]}
                     ∪ requests_defaults |} |}.

Definition token_world (contents : string) : World :=
  world {[ "token.txt" := Readable contents ]} ∅ (Raise connection_refused).

(** A world whose token file exists and cannot be read. *)
Definition locked_world : World :=
  world {[ "token.txt" := Unreadable permission_denied ]} ∅
    (Raise connection_refused).

(** Ctrl-C while a request is under way. *)
Definition interrupted : exc :=
  {| exc_type := KeyboardInterrupt; exc_str := EmptyString |}.

(** The line feed that ends a text file. *)
Definition newline : string := String (ascii_of_nat 10) EmptyString.

Definition env_world : World :=
  world {[ "token.txt" := Readable "env_test_token" ]}
    {[ "API_BASE_URL" := "https://env.test.com" ]} (Raise connection_refused).

(** What [json()] raises for a body that is not JSON. *)
Definition not_json : exc :=
  {| exc_type := JSONDecodeError;
     exc_str := "Expecting value: line 1 column 1 (char 0)" |}.

(** What [json()] raises for an integer of 5000 digits. *)
Definition int_too_long : exc :=
  {| exc_type := ValueError;
     exc_str := "Exceeds the limit (4300 digits) for integer string conversion: value has 5000 digits; use sys.set_int_max_str_digits() to increase the limit" |}.

(** A file name of 300 characters, and what examining it raises. *)
Definition long_name : string := Str.mul "a" 300.

Definition name_too_long : exc :=
  {| exc_type := OSError;
     exc_str := "[Errno 36] File name too long: '" +:+ long_name +:+ "'" |}.

Definition long_name_world : World :=
  world {[ long_name := Inaccessible name_too_long ]} ∅
    (Raise connection_refused).



Definition not_found : Response :=
  {| status_code := 404; text := "";
     json := Return (PDict {[ "message" := PStr "Not found" ]}) |}.

Definition not_found_array : Response :=
  {| status_code := 404; text := "[]"; json := Return (PList []) |}.

Definition plain_text : Response :=
  {| status_code := 200; text := "Plain text response"; json := Raise not_json |}.

Definition unprocessable : Response :=
  {| status_code := 422; text := EmptyString;
     json := Return (PDict {[ "message" := PNone; "code" := PInt 17 ]}) |}.

Definition bad_gateway : Response :=
  {| status_code := 502; text := ""; json := Raise not_json |}.

(** A success response whose body is one integer of 5000 digits: valid
    JSON that the decoder refuses. *)
Definition huge_integer : Response :=
  {| status_code := 200; text := Str.mul "9" 5000; json := Raise int_too_long |}.

End Examples.

(** * Properties *)

Ltac unfold_M :=
  unfold try_except, mbind, M_bind, mret, M_ret, raise in *.

(** ** The class hierarchy *)

(** The transport failures of [requests] are all caught by
    [except RequestException]: refused connections and failed name
    lookups are [ConnectionError], TLS failures [SSLError], timeouts
    [ConnectTimeout] or [ReadTimeout]. *)
Lemma transport_failures_caught :
  Forall (λ c, issubclass c RequestException = true)
    [ConnectionError; SSLError; Timeout; ConnectTimeout; ReadTimeout].
Proof. repeat constructor. Qed.

(** An [AttributeError] passes both [except] clauses of a verb call. *)
Lemma attribute_error_not_caught :
  issubclass AttributeError RequestException = false
  ∧ issubclass AttributeError JSONDecodeError = false.
Proof. split; reflexivity. Qed.

(** I/O and decoding errors are caught by [except Exception]; a
    [KeyboardInterrupt] is not. *)
Lemma io_errors_are_exceptions :
  Forall (λ c, issubclass c Exception = true)
    [OSError; FileNotFoundError; PermissionError; IsADirectoryError;
     UnicodeDecodeError]
  ∧ issubclass KeyboardInterrupt Exception = false.
Proof. split; [repeat constructor | reflexivity]. Qed.


(** What the decoder raises for JSON it refuses passes both [except]
    clauses of a verb call; what it raises for a body that is not JSON
    is caught by the first. *)
Lemma decoder_exceptions :
  Forall (λ c, issubclass c JSONDecodeError = false
               ∧ issubclass c RequestException = false)
    [ValueError; RecursionError]
  ∧ Forall (λ c, issubclass c JSONDecodeError = true)
      [JSONDecodeError; RequestsJSONDecodeError].
Proof. split; repeat constructor. Qed.

(** ** Response normalization, case by case *)

Lemma handle_response_run self r w :
  APIClient._handle_response self r w = (normalized r, w).
Proof.
  unfold APIClient._handle_response, Response_json, normalized, py_get.
  unfold_M. destruct (json r) as [body|e].
  - destruct (400 <=? status_code r); [|done]. by destruct body.
  - destruct (issubclass (exc_type e) JSONDecodeError); [|done].
    by destruct (400 <=? status_code r).
Qed.

Lemma handle_response_not_json self r e w :
  json r = Raise e → issubclass (exc_type e) JSONDecodeError = true →
  APIClient._handle_response self r w =
    (Return (if 400 <=? status_code r
             then PDict {[ "error" := PStr ("HTTP " +:+ pretty (status_code r));
                           "message" := PStr (Str.or (text r) "Unknown error") ]}
             else PDict {[ "content" := PStr (text r) ]}), w).
Proof.
  intros Hj He. rewrite handle_response_run. unfold normalized.
  by rewrite Hj, He.
Qed.

Lemma handle_response_refused self r e w :
  json r = Raise e → issubclass (exc_type e) JSONDecodeError = false →
  APIClient._handle_response self r w = (Raise e, w).
Proof.
  intros Hj He. rewrite handle_response_run. unfold normalized.
  by rewrite Hj, He.
Qed.


Lemma handle_response_error_object self r d w :
  json r = Return (PDict d) → 400 ≤ status_code r →
  APIClient._handle_response self r w =
    (Return (PDict {[ "error" := PStr ("HTTP " +:+ pretty (status_code r));
                      "message" := default (PStr "Unknown error") (d !! "message");
                      "details" := PDict d ]}), w).
Proof.
  intros Hj Hs. rewrite handle_response_run. unfold normalized.
  by rewrite Hj, (proj2 (Z.leb_le _ _) Hs).
Qed.

Lemma handle_response_error_other self r v w :
  json r = Return v → is_mapping v = false → 400 ≤ status_code r →
  APIClient._handle_response self r w =
    (Raise {| exc_type := AttributeError;
              exc_str := "'" +:+ type_name v +:+ "' object has no attribute 'get'" |}, w).
Proof.
  intros Hj Hv Hs. rewrite handle_response_run. unfold normalized.
  rewrite Hj, (proj2 (Z.leb_le _ _) Hs). by destruct v.
Qed.

(** ** How a verb call runs *)

(** A verb call issues the request [request_of]; it returns what
    normalization returns, turns a [RequestException] into the error
    dictionary, and lets any other exception pass. *)
Lemma call_run self c w :
  call self c w =
    (finished (transport w (request_of self c)),
     log_request (request_of self c) w).
Proof.
  destruct c; simpl;
    unfold APIClient.get, APIClient.post, APIClient.put, APIClient.delete,
      Session_request, request_of, finished; unfold_M; simpl;
    match goal with |- context [transport w ?q] => destruct (transport w q) as [r|e] end;
    rewrite ?handle_response_run;
    try destruct (normalized r) as [v|e];
    try destruct (issubclass (exc_type e) RequestException);
    reflexivity.
Qed.

Lemma call_response self c w r v :
  transport w (request_of self c) = Return r →
  APIClient._handle_response self r (log_request (request_of self c) w)
  = (Return v, log_request (request_of self c) w) →
  call self c w = (Return v, log_request (request_of self c) w).
Proof.
  intros Ht Hh. rewrite handle_response_run in Hh.
  rewrite call_run, Ht. unfold finished.
  by destruct (normalized r) as [v'|e]; [injection Hh as ->|].
Qed.

Lemma call_response_raises self c w r e :
  transport w (request_of self c) = Return r →
  APIClient._handle_response self r (log_request (request_of self c) w)
  = (Raise e, log_request (request_of self c) w) →
  issubclass (exc_type e) RequestException = false →
  call self c w = (Raise e, log_request (request_of self c) w).
Proof.
  intros Ht Hh He. rewrite handle_response_run in Hh.
  rewrite call_run, Ht. unfold finished.
  destruct (normalized r) as [v'|e']; [done|]. injection Hh as ->.
  by rewrite He.
Qed.


Lemma call_issues self c w :
  sent (snd (call self c w)) = (sent w ++ [request_of self c])%list.
Proof. by rewrite call_run. Qed.

(** ** Response normalization and transport failures *)




(** C2 fails on the code: a 404 response whose body is the empty JSON
    array makes [get] raise [AttributeError], where the specification
    promises the error dictionary. *)
Theorem C2_error_status_json_array_raises :
  result_of (call Examples.test_client (CallGet "/api/users" PNone)
               (Examples.answering (Return Examples.not_found_array)))
  = Raise {| exc_type := AttributeError;
             exc_str := "'list' object has no attribute 'get'" |}.
Proof. vm_compute. reflexivity. Qed.

(** The same happens for every error response whose body decodes to
    JSON that is not an object. *)
Lemma error_status_json_other self c w r v :
  transport w (request_of self c) = Return r →
  400 ≤ status_code r → json r = Return v → is_mapping v = false →
  result_of (call self c w) =
    Raise {| exc_type := AttributeError;
             exc_str := "'" +:+ type_name v +:+ "' object has no attribute 'get'" |}.
Proof.
  intros Ht Hs Hj Hv.
  by rewrite (call_response_raises _ _ _ r _ Ht
                (handle_response_error_other _ _ v _ Hj Hv Hs)).
Qed.

(** The cases of C2 that the code meets: an error status with a JSON
    object, and with a body that is not JSON. *)
Lemma error_status_json_object self c w r d :
  transport w (request_of self c) = Return r →
  400 ≤ status_code r → json r = Return (PDict d) →
  result_of (call self c w) =
    Return (PDict {[ "error" := PStr ("HTTP " +:+ pretty (status_code r));
                     "message" := default (PStr "Unknown error") (d !! "message");
                     "details" := PDict d ]}).
Proof.
  intros Ht Hs Hj.
  by rewrite (call_response _ _ _ r _ Ht
                (handle_response_error_object _ _ d _ Hj Hs)).
Qed.

Lemma error_status_not_json self c w r e :
  transport w (request_of self c) = Return r →
  400 ≤ status_code r →
  json r = Raise e → issubclass (exc_type e) JSONDecodeError = true →
  result_of (call self c w) =
    Return (PDict {[ "error" := PStr ("HTTP " +:+ pretty (status_code r));
                     "message" := PStr (if decide (text r = "")
                                        then "Unknown error" else text r) ]}).
Proof.
  intros Ht Hs Hj He.
  rewrite (call_response _ _ _ r _ Ht (handle_response_not_json _ _ e _ Hj He)).
  rewrite (proj2 (Z.leb_le _ _) Hs). unfold Str.or. simpl.
  by destruct (text r).
Qed.






(** C10: two verb calls, on any two clients in any two worlds, whose
    responses have the same status code and the same body (its text
    and its JSON decoding) give the same result to their callers. *)
Theorem C10_normalization_ignores_client self1 self2 c1 c2 w1 w2 r1 r2 :
  transport w1 (request_of self1 c1) = Return r1 →
  transport w2 (request_of self2 c2) = Return r2 →
  status_code r1 = status_code r2 →
  text r1 = text r2 →
  json r1 = json r2 →
  result_of (call self1 c1 w1) = result_of (call self2 c2 w2).
Proof.
  intros Ht1 Ht2 Hs Htx Hj.
  rewrite !call_run, Ht1, Ht2.
  by assert (r1 = r2) as -> by (destruct r1, r2; simpl in *; congruence).
Qed.

Lemma C10_witness :
  transport (Examples.answering (Return Examples.not_found))
    (request_of Examples.test_client (CallGet "/api/nonexistent" PNone))
  = Return Examples.not_found
  ∧ transport (Examples.world ∅ {[ "API_BASE_URL" := "https://env.test.com" ]}
                 (Return Examples.not_found))
      (request_of Examples.bare_client (CallDelete "users/7"))
    = Return Examples.not_found
  ∧ result_of (call Examples.test_client (CallGet "/api/nonexistent" PNone)
                 (Examples.answering (Return Examples.not_found)))
    = result_of (call Examples.bare_client (CallDelete "users/7")
                   (Examples.world ∅ {[ "API_BASE_URL" := "https://env.test.com" ]}
                      (Return Examples.not_found))).
Proof.
  split_and!; [reflexivity | reflexivity |].
  apply (C10_normalization_ignores_client Examples.test_client Examples.bare_client
           (CallGet "/api/nonexistent" PNone) (CallDelete "users/7")
           (Examples.answering (Return Examples.not_found))
           (Examples.world ∅ {[ "API_BASE_URL" := "https://env.test.com" ]}
              (Return Examples.not_found))
           Examples.not_found Examples.not_found); reflexivity.
Defined.
(** ** URL construction *)

Lemma append_cons c s t : String c s +:+ t = String c (s +:+ t).
Proof. reflexivity. Qed.

Lemma mem_slash c : Str.mem c "/" = true ↔ c = "/"%char.
Proof.
  simpl. destruct (Ascii.eqb_spec c "/"); split; intros; congruence.
Qed.

Lemma lstrip_slash_decompose s :
  ∃ n, s = slashes n +:+ Str.lstrip "/" s.
Proof.
  induction s as [|c s [n IH]]; [by exists O|].
  unfold Str.lstrip in *. cbn [Str.lstrip_by].
  destruct (Str.mem c "/") eqn:Hc.
  - apply mem_slash in Hc as ->. exists (S n).
    cbn [slashes]. rewrite append_cons. by f_equal.
  - by exists O.
Qed.

Lemma lstrip_slash_head s t : Str.lstrip "/" s ≠ "/" +:+ t.
Proof.
  induction s as [|c s IH]; [discriminate|].
  unfold Str.lstrip in *. cbn [Str.lstrip_by].
  destruct (Str.mem c "/") eqn:Hc; [done|].
  intros [= -> _]. by rewrite (proj2 (mem_slash "/") eq_refl) in Hc.
Qed.

Lemma lstrip_slash_id s : (∀ t, s ≠ "/" +:+ t) → Str.lstrip "/" s = s.
Proof.
  destruct s as [|c s]; [done|]. intros Hs.
  unfold Str.lstrip. cbn [Str.lstrip_by].
  destruct (Str.mem c "/") eqn:Hc; [|done].
  apply mem_slash in Hc as ->. by destruct (Hs s).
Qed.

Lemma lstrip_slash_cons s : Str.lstrip "/" ("/" +:+ s) = Str.lstrip "/" s.
Proof. reflexivity. Qed.

Lemma rstrip_slash_decompose s :
  ∃ n, s = Str.rstrip "/" s +:+ slashes n.
Proof.
  induction s as [|c s [n IH]]; [by exists O|].
  unfold Str.rstrip in *. cbn [Str.rstrip_by].
  destruct (Str.rstrip_by _ s) as [|a t].
  - destruct (Str.mem c "/") eqn:Hc.
    + apply mem_slash in Hc as ->. exists (S n).
      cbn [slashes]. by rewrite IH.
    + exists n. rewrite append_cons. by f_equal.
  - exists n. rewrite append_cons. by f_equal.
Qed.

Lemma rstrip_slash_last s t : Str.rstrip "/" s ≠ t +:+ "/".
Proof.
  revert t. induction s as [|c s IH]; intros t.
  - by destruct t.
  - unfold Str.rstrip in *. cbn [Str.rstrip_by].
    destruct (Str.rstrip_by _ s) as [|a u].
    + destruct (Str.mem c "/") eqn:Hc; [by destruct t|].
      destruct t as [|c' t]; simpl.
      * intros [= ->]. by rewrite (proj2 (mem_slash "/") eq_refl) in Hc.
      * intros [= _ Ht]. by destruct t.
    + destruct t as [|c' t]; simpl; [discriminate|].
      intros [= _ Ht]. by apply (IH t).
Qed.

(** C5: every verb call issues exactly one request, with its own verb,
    to the URL made of the base URL without its trailing slashes, one
    slash, and the endpoint without its leading slashes; what stands
    before that slash does not end in a slash and what stands after it
    does not begin with one. *)
Theorem C5_url_construction self c w :
  ∃ req base endpoint n m,
    sent (snd (call self c w)) = (sent w ++ [req])%list
    ∧ req_method req = method_of c
    ∧ APIClient.base_url self = base +:+ slashes n
    ∧ endpoint_of c = slashes m +:+ endpoint
    ∧ (∀ t, base ≠ t +:+ "/")
    ∧ (∀ t, endpoint ≠ "/" +:+ t)
    ∧ base = Str.rstrip "/" (APIClient.base_url self)
    ∧ endpoint = Str.lstrip "/" (endpoint_of c)
    ∧ req_url req = base +:+ "/" +:+ endpoint.
Proof.
  destruct (rstrip_slash_decompose (APIClient.base_url self)) as [n Hn].
  destruct (lstrip_slash_decompose (endpoint_of c)) as [m Hm].
  exists (request_of self c), (Str.rstrip "/" (APIClient.base_url self)),
    (Str.lstrip "/" (endpoint_of c)), n, m.
  split_and!; try done.
  - apply call_issues.
  - intros t. apply rstrip_slash_last.
  - intros t. apply lstrip_slash_head.
Qed.

(** [test_url_construction] *)
Example url_construction_test :
  let self := {| APIClient.token_file := "token.txt";
                 APIClient.base_url := "https://api.test.com/";
                 APIClient.token := Some "test_token_12345";
                 APIClient.session := APIClient.session Examples.test_client |} in
  req_url <$> sent (snd (call self (CallGet "/api/test" PNone)
                           (Examples.answering (Raise Examples.connection_refused))))
  = ["https://api.test.com/api/test"].
Proof. vm_compute. reflexivity. Qed.

Example url_construction_many_slashes :
  let self := {| APIClient.token_file := "token.txt";
                 APIClient.base_url := "https://api.test.com///";
                 APIClient.token := Some "test_token_12345";
                 APIClient.session := APIClient.session Examples.test_client |} in
  req_url <$> sent (snd (call self (CallDelete "//api//test/")
                           (Examples.answering (Raise Examples.connection_refused))))
  = ["https://api.test.com/api//test/"].
Proof. vm_compute. reflexivity. Qed.

(** C9, as the code has it: with an empty base URL every verb call
    issues its request to a slash followed by the endpoint without its
    leading slashes; that URL is the endpoint argument itself exactly
    when the endpoint begins with one slash and no more. *)
Theorem C9_empty_base_url self c w :
  APIClient.base_url self = "" →
  ∃ req,
    sent (snd (call self c w)) = (sent w ++ [req])%list
    ∧ req_url req = "/" +:+ Str.lstrip "/" (endpoint_of c)
    ∧ (req_url req = endpoint_of c
       ↔ ∃ rest, endpoint_of c = "/" +:+ rest ∧ ∀ t, rest ≠ "/" +:+ t).
Proof.
  intros Hb. exists (request_of self c).
  assert (Hu : req_url (request_of self c) = "/" +:+ Str.lstrip "/" (endpoint_of c))
    by (unfold request_of; simpl; by rewrite Hb).
  split_and!; [apply call_issues | done |]. rewrite Hu. split.
  - intros He. exists (Str.lstrip "/" (endpoint_of c)). split; [done|].
    intros t. apply lstrip_slash_head.
  - intros (rest & -> & Hrest).
    by rewrite lstrip_slash_cons, lstrip_slash_id.
Qed.

Lemma C9_witness :
  APIClient.base_url Examples.bare_client = ""
  ∧ ∃ req,
      sent (snd (call Examples.bare_client (CallGet "/api/users" PNone)
                   (Examples.answering (Return Examples.plain_text))))
      = [req]
      ∧ req_url req = "/api/users".
Proof.
  split; [reflexivity|].
  destruct (C9_empty_base_url Examples.bare_client (CallGet "/api/users" PNone)
              (Examples.answering (Return Examples.plain_text)) eq_refl)
    as (req & Hsent & Hurl & _).
  exists req. split; [exact Hsent | exact Hurl].
Defined.

(** C9 as stated fails: with an empty base URL, [get("api/users")]
    issues its request to ["/api/users"], not to the endpoint as
    given. *)
Lemma C9_counterexample :
  APIClient.base_url Examples.bare_client = ""
  ∧ req_url <$> sent (snd (call Examples.bare_client (CallGet "api/users" PNone)
                             (Examples.answering (Return Examples.plain_text))))
    = ["/api/users"]
  ∧ "/api/users" ≠ "api/users".
Proof. split_and!; [reflexivity | vm_compute; reflexivity | discriminate]. Qed.

(** ** Construction *)

Lemma load_token_run path w :
  result_of (APIClient._load_token path w) = loaded (files w !! path)
  ∧ session_default_headers (snd (APIClient._load_token path w))
    = session_default_headers w.
Proof.
  unfold APIClient._load_token, path_exists, read_file, loaded, result_of, print.
  unfold_M.
  destruct (files w !! path) as [[e0|e|contents]|] eqn:Hf; simpl; rewrite ?Hf; simpl.
  - done.
  - by destruct (issubclass (exc_type e) Exception).
  - by destruct (Str.strip contents).
  - done.
Qed.

Lemma init_run path url w :
  APIClient.__init__ path url w =
    match APIClient._load_token path w with
    | (Return tok, w') =>
        (Return {| APIClient.token_file := path;
                   APIClient.base_url :=
                     match url with
                     | Some (String c b) => String c b
                     | _ => default "" (environ w !! "API_BASE_URL")
                     end;
                   APIClient.token := tok;
                   APIClient.session :=
                     match tok with
                     | Some (String c t) =>
                         {| headers :=
                              {[ "Authorization" := "Bearer " +:+ String c t;
                                 "Content-Type" := "application/json" ]}
                              ∪ session_default_headers w' |}
                     | _ => {| headers := session_default_headers w' |}
                     end |}, w')
    | (Raise e, w') => (Raise e, w')
    end.
Proof.
  unfold APIClient.__init__, getenv, Session_new, headers_update. unfold_M.
  destruct url as [[|c b]|]; simpl;
    destruct (APIClient._load_token path w) as [[[[|c' t]|]|e] w']; reflexivity.
Qed.

(** A loaded token is never the empty string. *)
Lemma load_token_truthy path w tok :
  result_of (APIClient._load_token path w) = Return (Some tok) →
  Str.truthy tok = true.
Proof.
  rewrite (proj1 (load_token_run path w)). unfold loaded.
  destruct (files w !! path) as [[e0|e|contents]|]; try discriminate.
  - by destruct (issubclass (exc_type e) Exception).
  - destruct (decide (Str.strip contents = "")) as [|Hne]; [discriminate|].
    intros [= <-]. by destruct (Str.strip contents).
Qed.




(** C7: after construction with a token, the session's default headers
    hold [Authorization] with the value ["Bearer " + token] and
    [Content-Type] with the value [application/json], and are otherwise
    those of a fresh session; after construction without a token the
    headers are those of a fresh session, which has no [Authorization]
    header, and every later verb call still issues its request, under
    its own verb and without an [Authorization] header. *)
Theorem C7_session_headers path url w self w' :
  APIClient.__init__ path url w = (Return self, w') →
  session_default_headers w !! "Authorization" = None →
  (∀ tok, APIClient.token self = Some tok →
     headers (APIClient.session self) !! "Authorization" = Some ("Bearer " +:+ tok)
     ∧ headers (APIClient.session self) !! "Content-Type" = Some "application/json"
     ∧ ∀ k, k ≠ "Authorization" → k ≠ "Content-Type" →
            headers (APIClient.session self) !! k = session_default_headers w !! k)
  ∧ (APIClient.token self = None →
     headers (APIClient.session self) = session_default_headers w
     ∧ headers (APIClient.session self) !! "Authorization" = None
     ∧ ∀ c w2, ∃ req,
         sent (snd (call self c w2)) = (sent w2 ++ [req])%list
         ∧ req_method req = method_of c
         ∧ req_headers req = session_default_headers w
         ∧ req_headers req !! "Authorization" = None).
Proof.
  intros Hinit Hdef. rewrite init_run in Hinit.
  destruct (load_token_run path w) as [_ Hw].
  pose proof (load_token_truthy path w) as Htruthy.
  destruct (APIClient._load_token path w) as [[tok0|e] w1]; [|discriminate].
  simpl in Hw. injection Hinit as <- <-. simpl. rewrite Hw. split.
  - intros tok ->. specialize (Htruthy tok eq_refl).
    destruct tok as [|c t]; [discriminate|]. simpl. split_and!.
    + apply lookup_union_Some_l. by rewrite lookup_insert_eq.
    + apply lookup_union_Some_l.
      rewrite lookup_insert_ne by done. by rewrite lookup_singleton_eq.
    + intros k Hk1 Hk2. apply lookup_union_r.
      rewrite lookup_insert_ne by done. by rewrite lookup_singleton_ne.
  - intros ->. simpl. split_and!; [done | done |].
    intros c w2. eexists. split; [apply call_issues|].
    by split_and!.
Qed.

Lemma C7_witness :
  (APIClient.__init__ "token.txt" (Some "https://api.test.com")
     (Examples.token_world "test_token_12345")
   = (Return Examples.test_client, Examples.token_world "test_token_12345")
   ∧ session_default_headers (Examples.token_world "test_token_12345")
     !! "Authorization" = None
   ∧ headers (APIClient.session Examples.test_client) !! "Authorization"
     = Some "Bearer test_token_12345"
   ∧ headers (APIClient.session Examples.test_client) !! "Content-Type"
     = Some "application/json")
  ∧ (APIClient.__init__ "token.txt" None
       (Examples.answering (Raise Examples.connection_refused))
     = (Return Examples.bare_client,
        printed ["Warning: Token file 'token.txt' not found.";
                 "Please create the file with your bearer token."]
          (Examples.answering (Raise Examples.connection_refused)))
     ∧ APIClient.token Examples.bare_client = None
     ∧ ∃ req,
         sent (snd (call Examples.bare_client (CallGet "/api/users" PNone)
                      (Examples.answering (Return Examples.plain_text))))
         = [req]
         ∧ req_method req = GET
         ∧ req_headers req !! "Authorization" = None).
Proof.
  assert (Hinit :
    APIClient.__init__ "token.txt" (Some "https://api.test.com")
      (Examples.token_world "test_token_12345")
    = (Return Examples.test_client, Examples.token_world "test_token_12345"))
    by (vm_compute; reflexivity).
  assert (Hdef :
    session_default_headers (Examples.token_world "test_token_12345")
    !! "Authorization" = None)
    by (vm_compute; reflexivity).
  assert (Hbare :
    APIClient.__init__ "token.txt" None
      (Examples.answering (Raise Examples.connection_refused))
    = (Return Examples.bare_client,
       printed ["Warning: Token file 'token.txt' not found.";
                "Please create the file with your bearer token."]
         (Examples.answering (Raise Examples.connection_refused))))
    by (vm_compute; reflexivity).
  split.
  - destruct (C7_session_headers "token.txt" (Some "https://api.test.com")
                (Examples.token_world "test_token_12345")
                Examples.test_client (Examples.token_world "test_token_12345")
                Hinit Hdef) as [Htok _].
    destruct (Htok "test_token_12345" eq_refl) as (Hauth & Hct & _).
    split_and!; [exact Hinit | exact Hdef | exact Hauth | exact Hct].
  - destruct (C7_session_headers "token.txt" None
                (Examples.answering (Raise Examples.connection_refused))
                Examples.bare_client _ Hbare Hdef) as [_ Hnone].
    destruct (Hnone eq_refl) as (_ & _ & Hcall).
    destruct (Hcall (CallGet "/api/users" PNone)
                (Examples.answering (Return Examples.plain_text)))
      as (req & Hsent & Hm & _ & Hauth).
    split_and!; [exact Hbare | reflexivity |].
    exists req. split_and!; [exact Hsent | exact Hm | exact Hauth].
Defined.

(** C8, as the code has it: the stored base URL is the explicit
    argument when one is given and is not the empty string; otherwise
    the value of [API_BASE_URL] in the environment; otherwise the empty
    string. *)
Theorem C8_base_url_resolution path url w self w' :
  APIClient.__init__ path url w = (Return self, w') →
  APIClient.base_url self =
    match url with
    | Some explicit =>
        if decide (explicit = "")
        then default "" (environ w !! "API_BASE_URL")
        else explicit
    | None => default "" (environ w !! "API_BASE_URL")
    end.
Proof.
  intros Hinit. rewrite init_run in Hinit.
  destruct (APIClient._load_token path w) as [[tok|e] w1]; [|discriminate].
  injection Hinit as <- <-. simpl.
  by destruct url as [[|c b]|].
Qed.

Lemma C8_witness :
  APIClient.__init__ "token.txt" None Examples.env_world
  = (Return Examples.env_client, Examples.env_world)
  ∧ APIClient.base_url Examples.env_client = "https://env.test.com".
Proof.
  assert (Hinit :
    APIClient.__init__ "token.txt" None Examples.env_world
    = (Return Examples.env_client, Examples.env_world))
    by (vm_compute; reflexivity).
  split; [exact Hinit|].
  exact (C8_base_url_resolution "token.txt" None Examples.env_world
           Examples.env_client Examples.env_world Hinit).
Defined.

(** C8 as stated fails: an explicit empty base URL does not take
    precedence over [API_BASE_URL]. *)
Lemma C8_counterexample :
  APIClient.__init__ "token.txt" (Some "") Examples.env_world
  = (Return Examples.env_client, Examples.env_world)
  ∧ APIClient.base_url Examples.env_client = "https://env.test.com"
  ∧ APIClient.base_url Examples.env_client ≠ "".
Proof. split_and!; [vm_compute; reflexivity | reflexivity | discriminate]. Qed.

(** ** The cases of the test suite *)

(** [test_init_with_missing_token_file], with the two lines it prints. *)
Example init_missing_token_file :
  APIClient.__init__ "nonexistent_token.txt" (Some "https://api.test.com")
    (Examples.answering (Raise Examples.connection_refused))
  = (Return {| APIClient.token_file := "nonexistent_token.txt";
               APIClient.base_url := "https://api.test.com";
               APIClient.token := None;
               APIClient.session := {| headers := Examples.requests_defaults |} |},
     {| environ := ∅; files := ∅;
        stdout := ["Warning: Token file 'nonexistent_token.txt' not found.";
                   "Please create the file with your bearer token."];
        session_default_headers := Examples.requests_defaults;
        transport := λ _, Raise Examples.connection_refused;
        sent := [] |}).
Proof. vm_compute. reflexivity. Qed.

(** [test_init_with_empty_token_file] *)
Example init_empty_token_file :
  result_of (APIClient.__init__ "token.txt" (Some "https://api.test.com")
               (Examples.token_world EmptyString))
  = Return {| APIClient.token_file := "token.txt";
              APIClient.base_url := "https://api.test.com";
              APIClient.token := None;
              APIClient.session := {| headers := Examples.requests_defaults |} |}.
Proof. vm_compute. reflexivity. Qed.

(** A token file that cannot be read: the error is printed, not raised. *)
Example init_unreadable_token_file :
  stdout (snd (APIClient.__init__ "token.txt" None Examples.locked_world))
  = ["Error reading token file: [Errno 13] Permission denied: 'token.txt'"].
Proof. vm_compute. reflexivity. Qed.

(** [test_get_request_success] *)
Example get_request_success :
  result_of (call Examples.test_client (CallGet "/api/test" PNone)
    (Examples.answering
       (Return {| status_code := 200; text := EmptyString;
                  json := Return (PDict {[ "status" := PStr "success";
                                         "data" := PList [PInt 1; PInt 2; PInt 3] ]}) |})))
  = Return (PDict {[ "status" := PStr "success";
                     "data" := PList [PInt 1; PInt 2; PInt 3] ]}).
Proof. vm_compute. reflexivity. Qed.

(** [test_get_request_error] *)
Example get_request_error :
  result_of (call Examples.test_client (CallGet "/api/nonexistent" PNone)
               (Examples.answering (Return Examples.not_found)))
  = Return (PDict {[ "error" := PStr "HTTP 404";
                     "message" := PStr "Not found";
                     "details" := PDict {[ "message" := PStr "Not found" ]} ]}).
Proof. vm_compute. reflexivity. Qed.

(** An error response without a body. *)
Example get_request_error_empty_body :
  result_of (call Examples.test_client (CallGet "/api/test" PNone)
               (Examples.answering (Return Examples.bad_gateway)))
  = Return (PDict {[ "error" := PStr "HTTP 502";
                     "message" := PStr "Unknown error" ]}).
Proof. vm_compute. reflexivity. Qed.

(** A [KeyboardInterrupt] during the request is not turned into an
    error dictionary. *)
Example get_request_interrupted :
  result_of (call Examples.test_client (CallGet "/api/test" PNone)
               (Examples.answering
                  (Raise {| exc_type := KeyboardInterrupt; exc_str := EmptyString |})))
  = Raise {| exc_type := KeyboardInterrupt; exc_str := EmptyString |}.
Proof. vm_compute. reflexivity. Qed.

(** * Further properties of the client *)


(** With requests 2.27 or later [json()] raises the library's own
    [JSONDecodeError] for a body that is not JSON; it is caught like
    the one of [json]. *)
Example get_non_json_requests_error :
  result_of (call Examples.test_client (CallGet "/api/text" PNone)
               (Examples.answering
                  (Return {| status_code := 200; text := "Plain text response";
                             json := Raise {| exc_type := RequestsJSONDecodeError;
                                              exc_str := exc_str Examples.not_json |} |})))
  = Return (PDict {[ "content" := PStr "Plain text response" ]}).
Proof. vm_compute. reflexivity. Qed.
(** ** Trimming *)

Lemma all_append p s t :
  Str.all p (s +:+ t) = Str.all p s && Str.all p t.
Proof.
  induction s as [|c s IH]; [done|].
  rewrite append_cons. cbn [Str.all]. rewrite IH. by rewrite andb_assoc.
Qed.

Lemma lstrip_by_decompose p s :
  ∃ pre, s = pre +:+ Str.lstrip_by p s ∧ Str.all p pre = true.
Proof.
  induction s as [|c s (pre & IH & Hpre)]; [by exists ""|].
  cbn [Str.lstrip_by]. destruct (p c) eqn:Hc.
  - exists (String c pre). rewrite append_cons. cbn [Str.all].
    rewrite Hc, Hpre. split; [by f_equal | done].
  - by exists "".
Qed.

Lemma lstrip_by_head p s c t :
  Str.lstrip_by p s = String c t → p c = false.
Proof.
  induction s as [|a s IH]; [discriminate|].
  cbn [Str.lstrip_by]. destruct (p a) eqn:Ha; [done|].
  by intros [= <- _].
Qed.

Lemma rstrip_by_decompose p s :
  ∃ post, s = Str.rstrip_by p s +:+ post ∧ Str.all p post = true.
Proof.
  induction s as [|c s (post & IH & Hpost)]; [by exists ""|].
  cbn [Str.rstrip_by]. destruct (Str.rstrip_by p s) as [|a t].
  - destruct (p c) eqn:Hc.
    + exists (String c post). cbn [Str.all]. rewrite Hc, Hpost.
      split; [|done]. change ("" +:+ String c post) with (String c ("" +:+ post)).
      by f_equal.
    + exists post. rewrite append_cons. split; [by f_equal | done].
  - exists post. rewrite append_cons. split; [by f_equal | done].
Qed.

Lemma rstrip_by_last p s t c :
  Str.rstrip_by p s = t +:+ String c "" → p c = false.
Proof.
  revert t. induction s as [|a s IH]; intros t.
  - by destruct t.
  - cbn [Str.rstrip_by]. destruct (Str.rstrip_by p s) as [|b u].
    + destruct (p a) eqn:Ha; [by destruct t|].
      destruct t as [|a' t]; [by intros [= <-]|].
      rewrite append_cons. intros [= _ Ht]. by destruct t.
    + destruct t as [|a' t]; [discriminate|].
      rewrite append_cons. intros [= _ Ht]. by apply (IH t).
Qed.

Lemma rstrip_by_cons p c s :
  p c = false → Str.rstrip_by p (String c s) = String c (Str.rstrip_by p s).
Proof.
  intros Hc. cbn [Str.rstrip_by].
  destruct (Str.rstrip_by p s); [by rewrite Hc | done].
Qed.

Lemma rstrip_by_idempotent p s :
  Str.rstrip_by p (Str.rstrip_by p s) = Str.rstrip_by p s.
Proof.
  induction s as [|c s IH]; [done|].
  cbn [Str.rstrip_by]. destruct (Str.rstrip_by p s) as [|a t] eqn:Hr.
  - destruct (p c) eqn:Hc; [done|]. cbn [Str.rstrip_by]. by rewrite Hc.
  - cbn [Str.rstrip_by] in *. by rewrite IH.
Qed.

(** [strip] removes whitespace from both ends and nothing else: the
    string is whitespace, then its stripped form, then whitespace; the
    stripped form neither begins nor ends with whitespace, and
    stripping it again changes nothing. *)
Lemma strip_spec s :
  (∃ pre post,
     s = pre +:+ Str.strip s +:+ post
     ∧ Str.all Str.isspace pre = true ∧ Str.all Str.isspace post = true)
  ∧ (∀ c t, Str.strip s = String c t → Str.isspace c = false)
  ∧ (∀ t c, Str.strip s = t +:+ String c "" → Str.isspace c = false)
  ∧ Str.strip (Str.strip s) = Str.strip s.
Proof.
  unfold Str.strip.
  destruct (lstrip_by_decompose Str.isspace s) as (pre & Hs & Hpre).
  destruct (rstrip_by_decompose Str.isspace (Str.lstrip_by Str.isspace s))
    as (post & Hl & Hpost).
  assert (Hhead : ∀ c t,
    Str.rstrip_by Str.isspace (Str.lstrip_by Str.isspace s) = String c t →
    Str.isspace c = false).
  { intros c t. destruct (Str.lstrip_by Str.isspace s) as [|a u] eqn:Hlu;
      [discriminate|].
    pose proof (lstrip_by_head _ _ _ _ Hlu) as Ha.
    rewrite rstrip_by_cons by done. by intros [= <- _]. }
  split_and!.
  - exists pre, post. split_and!; [|done|done].
    by rewrite <- Hl.
  - exact Hhead.
  - intros t c. apply rstrip_by_last.
  - destruct (Str.rstrip_by Str.isspace (Str.lstrip_by Str.isspace s))
      as [|c t] eqn:Hr; [done|].
    cbn [Str.lstrip_by]. rewrite (Hhead c t eq_refl).
    rewrite <- Hr. apply rstrip_by_idempotent.
Qed.

(** ** What construction does to the world *)

Lemma printed_nil w : printed [] w = w.
Proof. destruct w. unfold printed. simpl. by rewrite app_nil_r. Qed.

Lemma print_run line w : print line w = (Return (), printed [line] w).
Proof. reflexivity. Qed.

Lemma printed_printed l1 l2 w :
  printed l2 (printed l1 w) = printed (l1 ++ l2) w.
Proof. unfold printed. simpl. by rewrite app_assoc. Qed.

Lemma load_token_full path w :
  APIClient._load_token path w =
    (loaded (files w !! path), printed (diagnostics path (files w !! path)) w).
Proof.
  unfold APIClient._load_token, path_exists, read_file, loaded, diagnostics.
  unfold_M.
  destruct (files w !! path) as [[e0|e|contents]|] eqn:Hf; simpl; rewrite ?Hf; simpl.
  - by rewrite printed_nil.
  - destruct (issubclass (exc_type e) Exception).
    + reflexivity.
    + by rewrite printed_nil.
  - destruct (decide (Str.strip contents = "")) as [He|He].
    + rewrite He. reflexivity.
    + destruct (Str.strip contents); [done|]. simpl. by rewrite printed_nil.
  - unfold print, printed. simpl. by rewrite <- app_assoc.
Qed.

Lemma init_full path url w :
  APIClient.__init__ path url w =
    (match loaded (files w !! path) with
     | Return tok =>
         Return {| APIClient.token_file := path;
                   APIClient.base_url :=
                     match url with
                     | Some (String c b) => String c b
                     | _ => default "" (environ w !! "API_BASE_URL")
                     end;
                   APIClient.token := tok;
                   APIClient.session :=
                     match tok with
                     | Some (String c t) =>
                         {| headers :=
                              {[ "Authorization" := "Bearer " +:+ String c t;
                                 "Content-Type" := "application/json" ]}
                              ∪ session_default_headers w |}
                     | _ => {| headers := session_default_headers w |}
                     end |}
     | Raise e => Raise e
     end,
     printed (diagnostics path (files w !! path)) w).
Proof.
  rewrite init_run, load_token_full.
  by destruct (loaded (files w !! path)).
Qed.

(** X1: a token stored by the constructor is the contents of the token
    file without the whitespace at its two ends: it is not empty, it
    neither begins nor ends with whitespace, and the file's contents are
    whitespace, the token, whitespace. *)
Theorem stored_token_is_trimmed_contents path url w self w' tok :
  APIClient.__init__ path url w = (Return self, w') →
  APIClient.token self = Some tok →
  tok ≠ ""
  ∧ Str.strip tok = tok
  ∧ (∀ c t, tok = String c t → Str.isspace c = false)
  ∧ (∀ t c, tok = t +:+ String c "" → Str.isspace c = false)
  ∧ ∃ contents pre post,
      files w !! path = Some (Readable contents)
      ∧ contents = pre +:+ tok +:+ post
      ∧ Str.all Str.isspace pre = true
      ∧ Str.all Str.isspace post = true.
Proof.
  rewrite init_full. intros Hinit Htok.
  unfold loaded in Hinit.
  destruct (files w !! path) as [[e0|e|contents]|] eqn:Hf.
  - discriminate.
  - destruct (issubclass (exc_type e) Exception);
      [|discriminate]. injection Hinit as <- _. discriminate.
  - destruct (decide (Str.strip contents = "")) as [He|He];
      injection Hinit as <- _; simpl in Htok; [discriminate|].
    injection Htok as <-.
    destruct (strip_spec contents) as ((pre & post & Hc & Hpre & Hpost) & Hh & Hl & Hi).
    split_and!; try done.
    by exists contents, pre, post.
  - injection Hinit as <- _. discriminate.
Qed.

Lemma stored_token_is_trimmed_contents_witness :
  APIClient.__init__ "token.txt" (Some "https://api.test.com")
    (Examples.token_world ("  test_token_12345" +:+ Examples.newline))
  = (Return Examples.test_client,
     Examples.token_world ("  test_token_12345" +:+ Examples.newline))
  ∧ APIClient.token Examples.test_client = Some "test_token_12345"
  ∧ Str.strip "test_token_12345" = "test_token_12345".
Proof.
  assert (Hinit :
    APIClient.__init__ "token.txt" (Some "https://api.test.com")
      (Examples.token_world ("  test_token_12345" +:+ Examples.newline))
    = (Return Examples.test_client,
       Examples.token_world ("  test_token_12345" +:+ Examples.newline)))
    by (vm_compute; reflexivity).
  split_and!; [exact Hinit | reflexivity |].
  exact (proj1 (proj2 (stored_token_is_trimmed_contents _ _ _ _ _ _ Hinit eq_refl))).
Defined.

(** X2: the constructor contacts nothing and changes nothing but the
    standard output: no request is issued, and the environment, the
    files and the transport are as before. *)
Theorem construction_only_prints path url w :
  let w' := snd (APIClient.__init__ path url w) in
  sent w' = sent w
  ∧ environ w' = environ w
  ∧ files w' = files w
  ∧ session_default_headers w' = session_default_headers w
  ∧ ∃ lines, stdout w' = (stdout w ++ lines)%list.
Proof.
  rewrite init_full. simpl. split_and!; try done. by eexists.
Qed.


(** For the name of 300 characters nothing is printed: the constructor
    raises at once. *)
Example construction_long_name :
  APIClient.__init__ Examples.long_name None Examples.long_name_world
  = (Raise Examples.name_too_long, Examples.long_name_world).
Proof. vm_compute. reflexivity. Qed.
(** ** What a verb call sends and leaves behind *)

Lemma call_world self c w :
  snd (call self c w) = log_request (request_of self c) w.
Proof. by rewrite call_run. Qed.

(** X4: a client constructed with a token sends it with every request:
    whatever verb is called, in whatever world, the one request issued
    carries [Authorization: Bearer <token>] and
    [Content-Type: application/json]. *)
Theorem token_sent_with_every_request path url w self w' tok c w2 :
  APIClient.__init__ path url w = (Return self, w') →
  APIClient.token self = Some tok →
  ∃ req,
    sent (snd (call self c w2)) = (sent w2 ++ [req])%list
    ∧ req_headers req !! "Authorization" = Some ("Bearer " +:+ tok)
    ∧ req_headers req !! "Content-Type" = Some "application/json".
Proof.
  rewrite init_full. intros Hinit Htok.
  exists (request_of self c). split; [apply call_issues|].
  destruct (loaded (files w !! path)) as [tok0|e] eqn:Hl; [|discriminate].
  injection Hinit as <- _. simpl in *. subst tok0.
  assert (Hne : tok ≠ "").
  { unfold loaded in Hl. destruct (files w !! path) as [[e0|e|contents]|];
      try discriminate.
    - by destruct (issubclass (exc_type e) Exception).
    - destruct (decide (Str.strip contents = "")); [discriminate|]. congruence. }
  destruct tok as [|a t]; [done|]. simpl. split.
  - apply lookup_union_Some_l. by rewrite lookup_insert_eq.
  - apply lookup_union_Some_l.
    rewrite lookup_insert_ne by done. by rewrite lookup_singleton_eq.
Qed.

Lemma token_sent_with_every_request_witness :
  APIClient.__init__ "token.txt" None Examples.env_world
  = (Return Examples.env_client, Examples.env_world)
  ∧ APIClient.token Examples.env_client = Some "env_test_token"
  ∧ ∃ req,
      sent (snd (call Examples.env_client (CallDelete "/api/users/7")
                   (Examples.answering (Return Examples.not_found))))
      = [req]
      ∧ req_headers req !! "Authorization" = Some "Bearer env_test_token"
      ∧ req_headers req !! "Content-Type" = Some "application/json".
Proof.
  assert (Hinit :
    APIClient.__init__ "token.txt" None Examples.env_world
    = (Return Examples.env_client, Examples.env_world))
    by (vm_compute; reflexivity).
  split_and!; [exact Hinit | reflexivity |].
  exact (token_sent_with_every_request "token.txt" None Examples.env_world
           Examples.env_client Examples.env_world "env_test_token"
           (CallDelete "/api/users/7")
           (Examples.answering (Return Examples.not_found)) Hinit eq_refl).
Defined.

(** X5: a client constructed without a token is not blocked: every
    verb call still issues its request, with the headers of a fresh
    session and nothing added. *)
Theorem request_without_token path url w self w' c w2 :
  APIClient.__init__ path url w = (Return self, w') →
  APIClient.token self = None →
  ∃ req,
    sent (snd (call self c w2)) = (sent w2 ++ [req])%list
    ∧ req_headers req = session_default_headers w.
Proof.
  rewrite init_full. intros Hinit Htok.
  exists (request_of self c). split; [apply call_issues|].
  destruct (loaded (files w !! path)) as [tok0|e]; [|discriminate].
  injection Hinit as <- _. simpl in *. by subst tok0.
Qed.

Lemma request_without_token_witness :
  APIClient.__init__ "token.txt" None
    (Examples.answering (Raise Examples.connection_refused))
  = (Return Examples.bare_client,
     printed ["Warning: Token file 'token.txt' not found.";
              "Please create the file with your bearer token."]
       (Examples.answering (Raise Examples.connection_refused)))
  ∧ APIClient.token Examples.bare_client = None
  ∧ ∃ req,
      sent (snd (call Examples.bare_client (CallGet "/api/users" PNone)
                   (Examples.answering (Return Examples.plain_text))))
      = [req]
      ∧ req_headers req = Examples.requests_defaults.
Proof.
  assert (Hinit :
    APIClient.__init__ "token.txt" None
      (Examples.answering (Raise Examples.connection_refused))
    = (Return Examples.bare_client,
       printed ["Warning: Token file 'token.txt' not found.";
                "Please create the file with your bearer token."]
         (Examples.answering (Raise Examples.connection_refused))))
    by (vm_compute; reflexivity).
  split_and!; [exact Hinit | reflexivity |].
  exact (request_without_token "token.txt" None
           (Examples.answering (Raise Examples.connection_refused))
           Examples.bare_client _ (CallGet "/api/users" PNone)
           (Examples.answering (Return Examples.plain_text)) Hinit eq_refl).
Defined.

(** X6: each verb hands its arguments to the session unchanged and
    nothing else: [get] its query parameters and no body, [post] and
    [put] both their [data] and their [json_data], [delete] neither
    parameters nor a body; each under its own HTTP verb and with the
    session's headers. *)
Theorem verbs_forward_their_arguments self endpoint params data json_data w :
  let url := Str.rstrip "/" (APIClient.base_url self) +:+ "/"
             +:+ Str.lstrip "/" endpoint in
  let hs := headers (APIClient.session self) in
  sent (snd (APIClient.get self endpoint params w))
  = (sent w ++ [{| req_method := GET; req_url := url; req_headers := hs;
                   req_params := params; req_data := PNone;
                   req_json := PNone |}])%list
  ∧ sent (snd (APIClient.post self endpoint data json_data w))
    = (sent w ++ [{| req_method := POST; req_url := url; req_headers := hs;
                     req_params := PNone; req_data := data;
                     req_json := json_data |}])%list
  ∧ sent (snd (APIClient.put self endpoint data json_data w))
    = (sent w ++ [{| req_method := PUT; req_url := url; req_headers := hs;
                     req_params := PNone; req_data := data;
                     req_json := json_data |}])%list
  ∧ sent (snd (APIClient.delete self endpoint w))
    = (sent w ++ [{| req_method := DELETE; req_url := url; req_headers := hs;
                     req_params := PNone; req_data := PNone;
                     req_json := PNone |}])%list.
Proof.
  split_and!.
  - apply (call_issues self (CallGet endpoint params) w).
  - apply (call_issues self (CallPost endpoint data json_data) w).
  - apply (call_issues self (CallPut endpoint data json_data) w).
  - apply (call_issues self (CallDelete endpoint) w).
Qed.

(** X7: an exception of the transport that is no [RequestException]
    is not turned into an error dictionary: the verb call raises it
    unchanged. *)
Theorem other_exceptions_propagate self c w e :
  transport w (request_of self c) = Raise e →
  issubclass (exc_type e) RequestException = false →
  result_of (call self c w) = Raise e.
Proof. intros Ht He. rewrite call_run, Ht. unfold finished. by rewrite He. Qed.

Lemma other_exceptions_propagate_witness :
  transport (Examples.answering (Raise Examples.interrupted))
    (request_of Examples.test_client (CallPut "/api/users/7" PNone PNone))
  = Raise Examples.interrupted
  ∧ issubclass (exc_type Examples.interrupted) RequestException = false
  ∧ result_of (call Examples.test_client (CallPut "/api/users/7" PNone PNone)
                 (Examples.answering (Raise Examples.interrupted)))
    = Raise Examples.interrupted.
Proof.
  split_and!; [reflexivity | reflexivity |].
  apply (other_exceptions_propagate Examples.test_client
           (CallPut "/api/users/7" PNone PNone)
           (Examples.answering (Raise Examples.interrupted))
           Examples.interrupted); reflexivity.
Defined.

(** X8: whatever a verb call returns or raises, it changes the world
    by the one request it issued and nothing else: it prints nothing
    and leaves files and environment alone. *)
Theorem verb_call_only_issues_its_request self c w :
  ∃ req,
    req_method req = method_of c
    ∧ stdout (snd (call self c w)) = stdout w
    ∧ files (snd (call self c w)) = files w
    ∧ environ (snd (call self c w)) = environ w
    ∧ sent (snd (call self c w)) = (sent w ++ [req])%list.
Proof. exists (request_of self c). by rewrite call_world. Qed.

(** ** Error responses as the caller sees them *)

(** X9: for an error status whose body is a JSON object, the verb call
    returns the dictionary with [error], [message] and [details]; the
    message is whatever the body holds under ["message"], be it [null],
    empty or not a string, and ["Unknown error"] only when the body has
    no such key; [details] is the whole body. *)
Theorem error_object_is_reported self c w r d :
  transport w (request_of self c) = Return r →
  400 ≤ status_code r →
  json r = Return (PDict d) →
  ∃ message,
    result_of (call self c w) =
      Return (PDict {[ "error" := PStr ("HTTP " +:+ pretty (status_code r));
                       "message" := message;
                       "details" := PDict d ]})
    ∧ (∀ m, d !! "message" = Some m → message = m)
    ∧ (d !! "message" = None → message = PStr "Unknown error").
Proof.
  intros Ht Hs Hj. exists (default (PStr "Unknown error") (d !! "message")).
  split; [by apply error_status_json_object|].
  split; [by intros m ->|by intros ->].
Qed.

Lemma error_object_is_reported_witness :
  transport (Examples.answering (Return Examples.unprocessable))
    (request_of Examples.test_client (CallPost "/api/users" PNone PNone))
  = Return Examples.unprocessable
  ∧ 400 ≤ status_code Examples.unprocessable
  ∧ result_of (call Examples.test_client (CallPost "/api/users" PNone PNone)
                 (Examples.answering (Return Examples.unprocessable)))
    = Return (PDict {[ "error" := PStr "HTTP 422";
                       "message" := PNone;
                       "details" := PDict {[ "message" := PNone;
                                             "code" := PInt 17 ]} ]}).
Proof.
  split_and!; [reflexivity | simpl; lia |].
  destruct (error_object_is_reported Examples.test_client
              (CallPost "/api/users" PNone PNone)
              (Examples.answering (Return Examples.unprocessable))
              Examples.unprocessable
              {[ "message" := PNone; "code" := PInt 17 ]})
    as (message & Hres & Hsome & _);
    [reflexivity | simpl; lia | reflexivity |].
  rewrite Hres. by rewrite (Hsome PNone eq_refl).
Defined.

(** X10: for an error status whose body is not JSON, the verb call
    returns the dictionary with [error] and [message] only; the message
    is the body's text, or ["Unknown error"] when the text is empty. *)
Theorem error_text_is_reported self c w r e :
  transport w (request_of self c) = Return r →
  400 ≤ status_code r →
  json r = Raise e →
  issubclass (exc_type e) JSONDecodeError = true →
  ∃ d,
    result_of (call self c w) = Return (PDict d)
    ∧ dom d = {[ "error"; "message" ]}
    ∧ d !! "error" = Some (PStr ("HTTP " +:+ pretty (status_code r)))
    ∧ d !! "message" = Some (PStr (if decide (text r = "")
                                   then "Unknown error" else text r)).
Proof.
  intros Ht Hs Hj He. eexists. split; [by apply (error_status_not_json _ _ _ r e)|].
  split_and!.
  - by rewrite dom_insert_L, dom_singleton_L.
  - by rewrite lookup_insert_eq.
  - rewrite lookup_insert_ne by done. by rewrite lookup_singleton_eq.
Qed.

Lemma error_text_is_reported_witness :
  transport (Examples.answering (Return Examples.bad_gateway))
    (request_of Examples.test_client (CallGet "/api/test" PNone))
  = Return Examples.bad_gateway
  ∧ 400 ≤ status_code Examples.bad_gateway
  ∧ json Examples.bad_gateway = Raise Examples.not_json
  ∧ issubclass (exc_type Examples.not_json) JSONDecodeError = true
  ∧ ∃ d,
      result_of (call Examples.test_client (CallGet "/api/test" PNone)
                   (Examples.answering (Return Examples.bad_gateway)))
      = Return (PDict d)
      ∧ d !! "error" = Some (PStr "HTTP 502")
      ∧ d !! "message" = Some (PStr "Unknown error").
Proof.
  split_and!; [reflexivity | simpl; lia | reflexivity | reflexivity |].
  destruct (error_text_is_reported Examples.test_client (CallGet "/api/test" PNone)
              (Examples.answering (Return Examples.bad_gateway))
              Examples.bad_gateway Examples.not_json)
    as (d & Hres & _ & Herr & Hmsg);
    [reflexivity | simpl; lia | reflexivity | reflexivity |].
  exists d. split_and!; [exact Hres | exact Herr | exact Hmsg].
Defined.

(** X11: no failure hides behind a returned value without an [error]
    key: when a verb call returns something that is not a dictionary
    with the key ["error"], the transport has answered with a status
    below 400 and the value is what normalization makes of that
    response's body. *)
Theorem no_error_key_means_success self c w v :
  result_of (call self c w) = Return v →
  (∀ d, v = PDict d → d !! "error" = None) →
  ∃ r,
    transport w (request_of self c) = Return r
    ∧ status_code r < 400
    ∧ v = match json r with
          | Return body => body
          | Raise _ => PDict {[ "content" := PStr (text r) ]}
          end.
Proof.
  intros Hres Hkey. rewrite call_run in Hres. unfold result_of in Hres.
  simpl in Hres. unfold finished in Hres.
  destruct (transport w (request_of self c)) as [r|e] eqn:Ht.
  - exists r. split; [done|]. unfold normalized in Hres.
    destruct (json r) as [body|e] eqn:Hj.
    + destruct (400 <=? status_code r) eqn:Hs.
      * exfalso. destruct body; try discriminate.
        injection Hres as <-.
        specialize (Hkey _ eq_refl). by rewrite lookup_insert_eq in Hkey.
      * apply Z.leb_gt in Hs. split; [done|]. by injection Hres.
    + destruct (issubclass (exc_type e) JSONDecodeError).
      * destruct (400 <=? status_code r) eqn:Hs.
        -- exfalso. injection Hres as <-.
           specialize (Hkey _ eq_refl). by rewrite lookup_insert_eq in Hkey.
        -- apply Z.leb_gt in Hs. split; [done|]. by injection Hres.
      * exfalso.
        destruct (issubclass (exc_type e) RequestException); [|discriminate].
        injection Hres as <-.
        specialize (Hkey _ eq_refl). by rewrite lookup_singleton_eq in Hkey.
  - exfalso.
    destruct (issubclass (exc_type e) RequestException); [|discriminate].
    injection Hres as <-.
    specialize (Hkey _ eq_refl). by rewrite lookup_singleton_eq in Hkey.
Qed.

Lemma no_error_key_means_success_witness :
  result_of (call Examples.test_client (CallGet "/api/text" PNone)
               (Examples.answering (Return Examples.plain_text)))
  = Return (PDict {[ "content" := PStr "Plain text response" ]})
  ∧ ∃ r,
      transport (Examples.answering (Return Examples.plain_text))
        (request_of Examples.test_client (CallGet "/api/text" PNone))
      = Return r
      ∧ status_code r < 400.
Proof.
  split; [reflexivity|].
  destruct (no_error_key_means_success Examples.test_client
              (CallGet "/api/text" PNone)
              (Examples.answering (Return Examples.plain_text))
              (PDict {[ "content" := PStr "Plain text response" ]}))
    as (r & Ht & Hs & _).
  - reflexivity.
  - intros d [= <-]. reflexivity.
  - exists r. split; [exact Ht | exact Hs].
Defined.

(** ** Slashes at the joint *)

Lemma rstrip_slashes_only n : Str.rstrip "/" (slashes n) = "".
Proof.
  induction n as [|n IH]; [done|].
  unfold Str.rstrip in *. cbn [slashes Str.rstrip_by]. by rewrite IH.
Qed.

Lemma rstrip_append_slashes s n :
  Str.rstrip "/" (s +:+ slashes n) = Str.rstrip "/" s.
Proof.
  induction s as [|c s IH].
  - change ("" +:+ slashes n) with (slashes n). by rewrite rstrip_slashes_only.
  - rewrite append_cons. unfold Str.rstrip in *. cbn [Str.rstrip_by].
    by rewrite IH.
Qed.

Lemma lstrip_slashes_append m s :
  Str.lstrip "/" (slashes m +:+ s) = Str.lstrip "/" s.
Proof.
  induction m as [|m IH]; [done|].
  cbn [slashes]. rewrite append_cons.
  change (String "/" (slashes m +:+ s)) with ("/" +:+ (slashes m +:+ s)).
  by rewrite lstrip_slash_cons.
Qed.

(** X12: slashes at the joint do not matter: a base URL with more
    slashes at its end and an endpoint with more slashes at its start
    give the same request URL. *)
Theorem url_ignores_slashes_at_joint self self' c c' n m w w' :
  APIClient.base_url self' = APIClient.base_url self +:+ slashes n →
  endpoint_of c' = slashes m +:+ endpoint_of c →
  ∃ req req',
    sent (snd (call self c w)) = (sent w ++ [req])%list
    ∧ sent (snd (call self' c' w')) = (sent w' ++ [req'])%list
    ∧ req_url req' = req_url req.
Proof.
  intros Hb He. exists (request_of self c), (request_of self' c').
  split_and!; [apply call_issues | apply call_issues |].
  unfold request_of. simpl. rewrite Hb, He.
  by rewrite rstrip_append_slashes, lstrip_slashes_append.
Qed.

Lemma url_ignores_slashes_at_joint_witness :
  APIClient.base_url Examples.slashed_client
  = APIClient.base_url Examples.test_client +:+ slashes 2
  ∧ endpoint_of (CallGet "///api/test" PNone)
    = slashes 3 +:+ endpoint_of (CallDelete "api/test")
  ∧ ∃ req req',
      sent (snd (call Examples.test_client (CallDelete "api/test")
                   (Examples.answering (Return Examples.plain_text))))
      = [req]
      ∧ sent (snd (call Examples.slashed_client (CallGet "///api/test" PNone)
                     (Examples.answering (Return Examples.plain_text))))
        = [req']
      ∧ req_url req' = req_url req.
Proof.
  split_and!; [reflexivity | reflexivity |].
  exact (url_ignores_slashes_at_joint Examples.test_client Examples.slashed_client
           (CallDelete "api/test") (CallGet "///api/test" PNone) 2 3
           (Examples.answering (Return Examples.plain_text))
           (Examples.answering (Return Examples.plain_text))
           eq_refl eq_refl).
Defined.

(** Slashes inside the base URL or the endpoint are kept. *)
Example url_keeps_inner_slashes :
  req_url <$> sent (snd (call Examples.slashed_client (CallGet "/api//test/" PNone)
                           (Examples.answering (Return Examples.plain_text))))
  = ["https://api.test.com/api//test/"].
Proof. vm_compute. reflexivity. Qed.

(** ** The entry point *)

Lemma main_run w :
  main w =
    (match loaded (files w !! "token.txt") with
     | Raise e => Raise e
     | Return _ => Return ()
     end,
     printed
       (["API Client Example"; Str.mul "=" 50]
        ++ diagnostics "token.txt" (files w !! "token.txt")
        ++ match loaded (files w !! "token.txt") with
           | Raise _ => []
           | Return (Some (String c t)) =>
               ["Token loaded successfully (first 10 chars): "
                +:+ Str.take 10 (String c t) +:+ "...";
                "Base URL: "
                +:+ Str.or (default "" (environ w !! "API_BASE_URL")) "Not set";
                LF +:+ "API client is ready to use!";
                "Modify the main() function to add your specific API calls."]
           | Return _ =>
               ["No valid token found. Please check your token.txt file."]
           end)%list w).
Proof.
  unfold main. unfold_M.
  change (print "API Client Example" w)
    with (Return (), printed ["API Client Example"] w).
  cbv beta iota.
  change (print (Str.mul "=" 50) (printed ["API Client Example"] w))
    with (Return (), printed [Str.mul "=" 50] (printed ["API Client Example"] w)).
  cbv beta iota.
  rewrite init_full. rewrite !printed_printed.
  change (files (printed _ w)) with (files w).
  change (environ (printed _ w)) with (environ w).
  destruct (loaded (files w !! "token.txt")) as [[[|c t]|]|e].
  - cbn [APIClient.token Str.truthy negb]. rewrite print_run, printed_printed.
    by rewrite <- !app_assoc.
  - cbn [APIClient.token APIClient.base_url Str.truthy negb].
    repeat (rewrite print_run; cbv beta iota). rewrite !printed_printed.
    by rewrite <- !app_assoc.
  - cbn [APIClient.token]. rewrite print_run, printed_printed.
    by rewrite <- !app_assoc.
  - rewrite app_nil_r. by rewrite <- !app_assoc.
Qed.

Lemma take_empty n s : Str.take (S n) s = "" → s = "".
Proof. by destruct s. Qed.

(** X13: when no token can be loaded (the file is missing, blank, or
    unreadable with an [Exception], [Path.exists()] not raising), [main]
    returns normally, issues no
    request, and prints the banner, the constructor's diagnostic and,
    as its last line, that no valid token was found; it does not
    announce that the client is ready. *)
Theorem main_without_token w :
  (∀ e, files w !! "token.txt" ≠ Some (Inaccessible e)) →
  (∀ contents, files w !! "token.txt" = Some (Readable contents) →
               Str.strip contents = "") →
  (∀ e, files w !! "token.txt" = Some (Unreadable e) →
        issubclass (exc_type e) Exception = true) →
  result_of (main w) = Return ()
  ∧ sent (snd (main w)) = sent w
  ∧ stdout (snd (main w)) =
      (stdout w
       ++ ["API Client Example"; Str.mul "=" 50]
       ++ match files w !! "token.txt" with
          | None =>
              ["Warning: Token file 'token.txt' not found.";
               "Please create the file with your bearer token."]
          | Some (Readable _) => ["Warning: Token file 'token.txt' is empty."]
          | Some (Unreadable e) => ["Error reading token file: " +:+ exc_str e]
          | Some (Inaccessible _) => []
          end
       ++ ["No valid token found. Please check your token.txt file."])%list.
Proof.
  intros Hacc Hblank Hexc. rewrite main_run. unfold result_of, loaded, diagnostics.
  destruct (files w !! "token.txt") as [[e0|e|contents]|].
  - by destruct (Hacc e0).
  - by rewrite (Hexc e eq_refl).
  - specialize (Hblank contents eq_refl).
    by destruct (decide (Str.strip contents = "")).
  - done.
Qed.

Lemma main_without_token_witness :
  result_of (main Examples.locked_world) = Return ()
  ∧ stdout (snd (main Examples.locked_world)) =
      ["API Client Example";
       "==================================================";
       "Error reading token file: [Errno 13] Permission denied: 'token.txt'";
       "No valid token found. Please check your token.txt file."].
Proof.
  destruct (main_without_token Examples.locked_world) as (Hres & _ & Hout).
  - intros e H. vm_compute in H. discriminate.
  - intros contents H. vm_compute in H. discriminate.
  - intros e H. vm_compute in H. injection H as <-. reflexivity.
  - split; [exact Hres | exact Hout].
Defined.



(** X15: [main] shows of the token its first ten characters and no
    more: two runs whose token files agree, once trimmed, on their
    first ten characters print the same, whatever follows in the
    tokens. *)
Theorem main_shows_ten_characters w1 w2 contents1 contents2 :
  files w1 !! "token.txt" = Some (Readable contents1) →
  files w2 !! "token.txt" = Some (Readable contents2) →
  Str.take 10 (Str.strip contents1) = Str.take 10 (Str.strip contents2) →
  environ w1 = environ w2 →
  stdout w1 = stdout w2 →
  stdout (snd (main w1)) = stdout (snd (main w2)).
Proof.
  intros Hf1 Hf2 Hten Henv Hout. rewrite !main_run, Hf1, Hf2.
  unfold loaded, diagnostics. cbn [snd printed stdout]. rewrite Henv, Hout.
  destruct (decide (Str.strip contents1 = "")) as [He1|Hne1];
    destruct (decide (Str.strip contents2 = "")) as [He2|Hne2].
  - done.
  - rewrite He1 in Hten. symmetry in Hten. by apply take_empty in Hten.
  - rewrite He2 in Hten. by apply take_empty in Hten.
  - destruct (Str.strip contents1) as [|c1 t1]; [done|].
    destruct (Str.strip contents2) as [|c2 t2]; [done|].
    by rewrite Hten.
Qed.

Lemma main_shows_ten_characters_witness :
  Str.take 10 (Str.strip "test_token_12345")
  = Str.take 10 (Str.strip "test_token_67890-and-more")
  ∧ stdout (snd (main (Examples.token_world "test_token_12345")))
    = stdout (snd (main (Examples.token_world "test_token_67890-and-more"))).
Proof.
  split; [reflexivity|].
  apply (main_shows_ten_characters
           (Examples.token_world "test_token_12345")
           (Examples.token_world "test_token_67890-and-more")
           "test_token_12345" "test_token_67890-and-more"); reflexivity.
Defined.

(** X16: [main] never contacts the server: whatever the token file and
    the environment, it issues no request and leaves files and
    environment as they are. *)
Theorem main_issues_no_request w :
  sent (snd (main w)) = sent w
  ∧ files (snd (main w)) = files w
  ∧ environ (snd (main w)) = environ w.
Proof. by rewrite main_run. Qed.


(** ** When a verb call raises *)

(** X17: a verb call raises in three cases only: the transport raised
    an exception that is no [RequestException]; or [json()] raised an
    exception that is neither a [JSONDecodeError] nor a
    [RequestException] (the decoder refusing a body); in both the
    exception comes out unchanged; or the response has an error status
    and a body that decodes to JSON that is no object, which comes out
    as an [AttributeError]. *)
Theorem verb_call_raises_only self c w e :
  result_of (call self c w) = Raise e →
  (transport w (request_of self c) = Raise e
   ∧ issubclass (exc_type e) RequestException = false)
  ∨ (∃ r,
       transport w (request_of self c) = Return r
       ∧ json r = Raise e
       ∧ issubclass (exc_type e) JSONDecodeError = false
       ∧ issubclass (exc_type e) RequestException = false)
  ∨ (∃ r body,
       transport w (request_of self c) = Return r
       ∧ 400 ≤ status_code r
       ∧ json r = Return body
       ∧ is_mapping body = false
       ∧ exc_type e = AttributeError).
Proof.
  intros Hres. rewrite call_run in Hres. unfold result_of in Hres.
  simpl in Hres. unfold finished in Hres.
  destruct (transport w (request_of self c)) as [r|e0] eqn:Ht.
  - right. unfold normalized in Hres.
    destruct (json r) as [body|e1] eqn:Hj.
    + right. destruct (400 <=? status_code r) eqn:Hs; [|discriminate].
      apply Z.leb_le in Hs.
      destruct body; try discriminate;
        (simpl in Hres; injection Hres as <-; eexists r, _; by split_and!).
    + left. destruct (issubclass (exc_type e1) JSONDecodeError) eqn:Hd;
        [discriminate|].
      destruct (issubclass (exc_type e1) RequestException) eqn:Hq;
        [discriminate|].
      injection Hres as <-. by exists r.
  - left. destruct (issubclass (exc_type e0) RequestException) eqn:He;
      [discriminate|].
    injection Hres as <-. by split.
Qed.

Lemma verb_call_raises_only_witness :
  result_of (call Examples.test_client (CallGet "/api/count" PNone)
               (Examples.answering (Return Examples.huge_integer)))
  = Raise Examples.int_too_long
  ∧ json Examples.huge_integer = Raise Examples.int_too_long
  ∧ issubclass (exc_type Examples.int_too_long) JSONDecodeError = false
  ∧ issubclass (exc_type Examples.int_too_long) RequestException = false.
Proof.
  assert (Hres :
    result_of (call Examples.test_client (CallGet "/api/count" PNone)
                 (Examples.answering (Return Examples.huge_integer)))
    = Raise Examples.int_too_long) by (vm_compute; reflexivity).
  split; [exact Hres|].
  destruct (verb_call_raises_only Examples.test_client
              (CallGet "/api/count" PNone)
              (Examples.answering (Return Examples.huge_integer))
              Examples.int_too_long Hres)
    as [[Ht _] | [(r & Ht & Hj & Hd & Hq) | (r & body & Ht & _ & Hj & _)]].
  - discriminate Ht.
  - injection Ht as <-. split_and!; [exact Hj | exact Hd | exact Hq].
  - injection Ht as <-. discriminate Hj.
Defined.

(** A response whose body the decoder refuses, at an error status as
    well: the [ValueError] comes out of the call. *)
Example refused_body_raises :
  result_of (call Examples.test_client (CallPost "/api/count" PNone PNone)
               (Examples.answering
                  (Return {| status_code := 500;
                             text := text Examples.huge_integer;
                             json := Raise Examples.int_too_long |})))
  = Raise Examples.int_too_long.
Proof. vm_compute. reflexivity. Qed.
